(** * Status categories of the Jira cloud client (cloud/statuscategory.go)

    A shallow embedding of [StatusCategoryService.GetList] and
    [StatusCategoryService.Get].  Both methods are straight-line code over
    the shared API client: they call [s.client.NewRequest] and [s.client.Do]
    and branch on the returned errors.  The client calls are kept as the
    nodes of a small program tree, so that the calls a method makes can be
    counted, and a client implementation (with a state of its own) runs
    the tree. *)

From Stdlib Require Import String List ZArith Bool Lia.
Set Warnings "-register-all".
Import ListNotations.
Open Scope string_scope.

(** ** Data model *)

(** [type StatusCategory struct] (lines 20-26).  Go's [int] field is kept
    as an integer; no arithmetic is done on it. *)
Record StatusCategory : Type := mkStatusCategory {
  Self : string;
  ID : Z;
  Name : string;
  Key : string;
  ColorName : string
}.

(** The value [new(StatusCategory)] points to: every field at its zero value. *)
Definition zeroStatusCategory : StatusCategory :=
  {| Self := ""; ID := 0%Z; Name := ""; Key := ""; ColorName := "" |}.

(** The keys of the default status categories (lines 29-34). *)
Definition StatusCategoryComplete : string := "done".
Definition StatusCategoryInProgress : string := "indeterminate".
Definition StatusCategoryToDo : string := "new".
Definition StatusCategoryUndefined : string := "undefined".

(** [http.MethodGet] of net/http. *)
Definition MethodGet : string := "GET".

(** A JSON document, as far as the client sees one: the value a response
    body parses to.  Numbers are the integral ones. *)
Inductive json : Type :=
| JNull
| JBool (b : bool)
| JNumber (n : Z)
| JString (s : string)
| JArray (elems : list json)
| JObject (members : list (string * json)).

(** The range of Go's [int] (64 bits). *)
Definition fitsInt (n : Z) : bool :=
  ((- 2 ^ 63 <=? n) && (n <? 2 ^ 63))%Z.

(** Modelled from the spec: the decoding of a response body is done inside
    the client's [Do], which is defined elsewhere in the package and is not
    part of statuscategory.go.  The spec gives the JSON field
    mapping as the exact, case-sensitive names self, id, name, key and
    colorName, which are the json tags of the struct (lines 21-25).  A member
    with another name is skipped, null leaves a field as it is, and a value
    of the wrong type (or a number outside Go's [int]) is an error. *)
Definition setField (sc : StatusCategory) (name : string) (v : json)
  : option StatusCategory :=
  if String.eqb name "self" then
    match v with
    | JString x => Some (mkStatusCategory x (ID sc) (Name sc) (Key sc) (ColorName sc))
    | JNull => Some sc
    | _ => None
    end
  else if String.eqb name "id" then
    match v with
    | JNumber n =>
        if fitsInt n
        then Some (mkStatusCategory (Self sc) n (Name sc) (Key sc) (ColorName sc))
        else None
    | JNull => Some sc
    | _ => None
    end
  else if String.eqb name "name" then
    match v with
    | JString x => Some (mkStatusCategory (Self sc) (ID sc) x (Key sc) (ColorName sc))
    | JNull => Some sc
    | _ => None
    end
  else if String.eqb name "key" then
    match v with
    | JString x => Some (mkStatusCategory (Self sc) (ID sc) (Name sc) x (ColorName sc))
    | JNull => Some sc
    | _ => None
    end
  else if String.eqb name "colorName" then
    match v with
    | JString x => Some (mkStatusCategory (Self sc) (ID sc) (Name sc) (Key sc) x)
    | JNull => Some sc
    | _ => None
    end
  else Some sc.

(** Modelled from the spec: the members of an object are taken in the
    order of the document, each through the field mapping. *)
Fixpoint decodeMembers (members : list (string * json)) (sc : StatusCategory)
  : option StatusCategory :=
  match members with
  | [] => Some sc
  | (name, v) :: rest =>
      match setField sc name v with
      | Some sc' => decodeMembers rest sc'
      | None => None
      end
  end.

(** Modelled from the spec: a body decoded as a single StatusCategory
    record, into the struct the caller supplied. *)
Definition decodeStruct (doc : json) (sc : StatusCategory) : option StatusCategory :=
  match doc with
  | JObject members => decodeMembers members sc
  | JNull => Some sc
  | _ => None
  end.

(** Modelled from the spec: a body decoded as an ordered sequence of
    StatusCategory records; each element is decoded into a fresh struct and
    the order is the order of the array. *)
Fixpoint decodeElems (elems : list json) : option (list StatusCategory) :=
  match elems with
  | [] => Some []
  | e :: rest =>
      match decodeStruct e zeroStatusCategory, decodeElems rest with
      | Some sc, Some scs => Some (sc :: scs)
      | _, _ => None
      end
  end.

(** Modelled from the spec: decoding into the slice the caller supplied;
    null makes the slice nil. *)
Definition decodeSlice (doc : json) (old : option (list StatusCategory))
  : option (option (list StatusCategory)) :=
  match doc with
  | JArray elems =>
      match decodeElems elems with
      | Some scs => Some (Some scs)
      | None => None
      end
  | JNull => Some None
  | _ => None
  end.

(** What the second argument of [Do] points to: [&statusCategories] in
    [GetList], a pointer to a slice variable, and [statusCategory] in [Get],
    a pointer to a struct.  A slice is [None] when it is nil. *)
Inductive targetKind : Type := SliceTarget | StructTarget.

Definition pointee (tk : targetKind) : Type :=
  match tk with
  | SliceTarget => option (list StatusCategory)
  | StructTarget => StatusCategory
  end.

(** Modelled from the spec: the client deserializes the body into the
    caller-supplied target.  The result is the new pointee, or [None] when
    the document does not fit the target. *)
Definition Unmarshal (tk : targetKind) (doc : json) : pointee tk -> option (pointee tk) :=
  match tk with
  | SliceTarget => decodeSlice doc
  | StructTarget => decodeStruct doc
  end.

(** The two response bodies of the spec's examples: the list with the
    category "To Do", and the category "Done". *)
Definition exampleListDoc : json :=
  JArray [JObject [("self", JString "http://x/1"); ("id", JNumber 1);
                   ("name", JString "To Do"); ("key", JString "new");
                   ("colorName", JString "blue-gray")]].

Definition exampleDoneDoc : json :=
  JObject [("self", JString "http://x/3"); ("id", JNumber 3);
           ("name", JString "Done"); ("key", JString "done");
           ("colorName", JString "green")].

(** Go's [strings.Contains]. *)
Definition strings_Contains (s substr : string) : bool :=
  match index 0 substr s with
  | Some _ => true
  | None => false
  end.

Section Service.

(** The types the methods only pass along: [context.Context],
    [*http.Request] (nil included), the pointee of [*Response], and the
    error values made outside this file. *)
Context {Ctx Request Response ExtErr : Type}.

(** Go's [error] values that are not nil: the errors of [errors.New], the
    errors made elsewhere (by the client, net/http, the context), and the
    API errors, which only [NewJiraError] makes. *)
Inductive error : Type :=
| errorString (text : string)
| externalError (e : ExtErr)
| APIError (resp : option Response) (httpError : error).

(** [errors.New]. *)
Definition errors_New (text : string) : error := errorString text.

(** Modelled from the spec: [NewJiraError] is declared in another file of
    the package, which is not at hand.  The spec describes its result as a
    structured API error that embeds the response metadata and wraps the
    failure of the call. *)
Definition NewJiraError (resp : option Response) (httpError : error) : error :=
  APIError resp httpError.

(** The response an API error embeds, and the failure it wraps. *)
Definition embeddedResponse (e : error) : option (option Response) :=
  match e with
  | APIError resp _ => Some resp
  | _ => None
  end.

Definition wrappedError (e : error) : option error :=
  match e with
  | APIError _ httpError => Some httpError
  | _ => None
  end.

Definition isAPIError (e : error) : bool :=
  match e with
  | APIError _ _ => true
  | _ => false
  end.

(** The text of an error made by [errors.New]. *)
Definition errorText (e : error) : option string :=
  match e with
  | errorString text => Some text
  | _ => None
  end.

(** ** Programs over the client *)

(** A method body: it returns, or calls [s.client.NewRequest] or
    [s.client.Do] and goes on with what the call returned.  [Do] gets the
    pointee of its target and gives back what the pointee holds after the
    call; the pointer itself is the caller's and cannot be changed. *)
Inductive Prog (A : Type) : Type :=
| Ret (a : A)
| CallNewRequest (ctx : Ctx) (method urlStr : string) (body : option json)
    (k : Request * option error -> Prog A)
| CallDo (req : Request) (tk : targetKind) (v : pointee tk)
    (k : pointee tk * option Response * option error -> Prog A).

Arguments Ret {A} a.
Arguments CallNewRequest {A} ctx method urlStr body k.
Arguments CallDo {A} req tk v k.

Fixpoint bind {A B : Type} (p : Prog A) (f : A -> Prog B) : Prog B :=
  match p with
  | Ret a => f a
  | CallNewRequest ctx method urlStr body k =>
      CallNewRequest ctx method urlStr body (fun r => bind (k r) f)
  | CallDo req tk v k => CallDo req tk v (fun r => bind (k r) f)
  end.

Definition NewRequest (ctx : Ctx) (method urlStr : string) (body : option json)
  : Prog (Request * option error) :=
  CallNewRequest ctx method urlStr body Ret.

Definition Do (req : Request) (tk : targetKind) (v : pointee tk)
  : Prog (pointee tk * option Response * option error) :=
  CallDo req tk v Ret.

Notation "' pat <- c1 ;; c2" :=
  (bind c1 (fun x => match x with pat => c2 end))
  (at level 100, pat pattern, c1 at next level, right associativity).

(** ** The two methods *)

(** [GetList] (lines 39-53). *)
Definition GetList (ctx : Ctx)
  : Prog (option (list StatusCategory) * option Response * option error) :=
  let apiEndpoint := "/rest/api/3/statuscategory" in
  '(req, err) <- NewRequest ctx MethodGet apiEndpoint None ;;
  match err with
  | Some e => Ret (None, None, Some e)
  | None =>
      let statusCategories : pointee SliceTarget := None in
      '(statusCategories, resp, err) <- Do req SliceTarget statusCategories ;;
      match err with
      | Some e => Ret (None, resp, Some (NewJiraError resp e))
      | None => Ret (statusCategories, resp, None)
      end
  end.

(** [Get] (lines 61-79).  [fmt.Sprintf] with [%v] on a string writes the
    string as it is. *)
Definition Get (ctx : Ctx) (statusCategoryID : string)
  : Prog (option StatusCategory * option Response * option error) :=
  if String.eqb statusCategoryID "" then
    Ret (None, None, Some (errors_New "jira: not status category set"))
  else
    let apiEndpoint := "/rest/api/3/statuscategory/" ++ statusCategoryID in
    '(req, err) <- NewRequest ctx MethodGet apiEndpoint None ;;
    match err with
    | Some e => Ret (None, None, Some e)
    | None =>
        let statusCategory : pointee StructTarget := zeroStatusCategory in
        '(statusCategory, resp, err) <- Do req StructTarget statusCategory ;;
        match err with
        | Some e => Ret (None, resp, Some (NewJiraError resp e))
        | None => Ret (Some statusCategory, resp, None)
        end
    end.

(** ** Running a program on a client *)

(** A client: the two methods of the shared API client, over a state [St]
    of the client's own (connections, the remote service, a clock). *)
Record Client (St : Type) : Type := mkClient {
  client_NewRequest :
    Ctx -> string -> string -> option json -> St -> (Request * option error) * St;
  client_Do :
    Request -> forall tk : targetKind, pointee tk -> St ->
    (pointee tk * option Response * option error) * St
}.

Arguments client_NewRequest {St} c ctx method urlStr body s.
Arguments client_Do {St} c req tk v s.

(** One call made on the client. *)
Inductive Call : Type :=
| NewRequestCalled (ctx : Ctx) (method urlStr : string) (body : option json)
| DoCalled (req : Request) (tk : targetKind) (v : pointee tk).

(** [run c p s]: what [p] returns on client [c] started in state [s], the
    client's state afterwards, and the calls made, first call first. *)
Fixpoint run {St A : Type} (c : Client St) (p : Prog A) (s : St)
  : A * St * list Call :=
  match p with
  | Ret a => (a, s, [])
  | CallNewRequest ctx method urlStr body k =>
      let '(r, s1) := client_NewRequest c ctx method urlStr body s in
      let '(a, s2, calls) := run c (k r) s1 in
      (a, s2, NewRequestCalled ctx method urlStr body :: calls)
  | CallDo req tk v k =>
      let '(r, s1) := client_Do c req tk v s in
      let '(a, s2, calls) := run c (k r) s1 in
      (a, s2, DoCalled req tk v :: calls)
  end.

Definition returned {St A : Type} (r : A * St * list Call) : A := fst (fst r).
Definition finalState {St A : Type} (r : A * St * list Call) : St := snd (fst r).
Definition callsMade {St A : Type} (r : A * St * list Call) : list Call := snd r.

Definition isNewRequest (c : Call) : bool :=
  match c with NewRequestCalled _ _ _ _ => true | DoCalled _ _ _ => false end.

Definition isDo (c : Call) : bool :=
  match c with NewRequestCalled _ _ _ _ => false | DoCalled _ _ _ => true end.

Definition countNewRequest (calls : list Call) : nat :=
  length (filter isNewRequest calls).

Definition countDo (calls : list Call) : nat :=
  length (filter isDo calls).

(** The three values a method returns. *)
Definition valueOf {V : Type} (r : V * option Response * option error) : V :=
  fst (fst r).
Definition responseOf {V : Type} (r : V * option Response * option error)
  : option Response := snd (fst r).
Definition errorOf {V : Type} (r : V * option Response * option error)
  : option error := snd r.

End Service.

Arguments Ret {Ctx Request Response ExtErr A} a.
Arguments CallNewRequest {Ctx Request Response ExtErr A} ctx method urlStr body k.
Arguments CallDo {Ctx Request Response ExtErr A} req tk v k.
Arguments client_NewRequest {Ctx Request Response ExtErr St} c ctx method urlStr body s.
Arguments client_Do {Ctx Request Response ExtErr St} c req tk v s.
Arguments mkClient {Ctx Request Response ExtErr St} _ _.

(** ** A test double for the client

    A client in the style of the package's tests: requests are built from
    the method and the path unless the client is misconfigured, and a table
    of routes stands for the remote service.  A route answers with a status
    code and a body; a path without a route answers 404. *)
Module Mock.

Definition Ctx : Type := unit.
Definition Request : Type := option (string * string).
Definition Response : Type := Z.
Definition ExtErr : Type := string.

Record Server : Type := mkServer {
  misconfigured : bool;
  routes : list (string * (Z * json));
  served : list string
}.

Fixpoint route (urlStr : string) (table : list (string * (Z * json)))
  : option (Z * json) :=
  match table with
  | [] => None
  | (path, answer) :: rest =>
      if String.eqb path urlStr then Some answer else route urlStr rest
  end.

Definition serve (urlStr : string) (s : Server) : Server :=
  mkServer (misconfigured s) (routes s) (served s ++ [urlStr]).

Definition newRequest (ctx : Ctx) (method urlStr : string) (body : option json)
  (s : Server) : (Request * option (@error Response ExtErr)) * Server :=
  if misconfigured s
  then ((None, Some (externalError "parse base url")), s)
  else ((Some (method, urlStr), None), s).

Definition do (req : Request) (tk : targetKind) (v : pointee tk) (s : Server)
  : (pointee tk * option Response * option (@error Response ExtErr)) * Server :=
  match req with
  | None => ((v, None, Some (externalError "nil request")), s)
  | Some (method, urlStr) =>
      match route urlStr (routes s) with
      | None => ((v, Some 404%Z, Some (externalError "404 Not Found")), serve urlStr s)
      | Some (status, doc) =>
          if ((200 <=? status) && (status <? 300))%Z then
            match Unmarshal tk doc v with
            | Some v' => ((v', Some status, None), serve urlStr s)
            | None => ((v, Some status, Some (externalError "json: cannot unmarshal")),
                       serve urlStr s)
            end
          else ((v, Some status, Some (externalError "request failed")), serve urlStr s)
      end
  end.

Definition client : Client Server := mkClient newRequest do.

(** A service with the list, the category 3 under its id and its key,
    an empty object under [bare], and a failing path. *)
Definition up : Server :=
  mkServer false
    [("/rest/api/3/statuscategory", (200%Z, exampleListDoc));
     ("/rest/api/3/statuscategory/3", (200%Z, exampleDoneDoc));
     ("/rest/api/3/statuscategory/done", (200%Z, exampleDoneDoc));
     ("/rest/api/3/statuscategory/bare", (200%Z, JObject []));
     ("/rest/api/3/statuscategory/gone", (500%Z, JNull))]
    [].

(** A service that answers no path. *)
Definition down : Server := mkServer false [] [].

(** A client that cannot build a request. *)
Definition broken : Server := mkServer true [] [].

(** A service whose list is the body [null]: decoding leaves the slice nil. *)
Definition hollow : Server :=
  mkServer false [("/rest/api/3/statuscategory", (200%Z, JNull))] [].

End Mock.


(** ** What a run of the two methods looks like *)

Section Runs.

Context {Ctx Request Response ExtErr : Type}.
Variable St : Type.
Variable c : @Client Ctx Request Response ExtErr St.

(** The request could not be built: the call to [NewRequest] gives a non-nil
    error. *)
Definition newRequestFails (ctx : Ctx) (urlStr : string) (s : St)
  (e : @error Response ExtErr) : Prop :=
  exists req s1,
    client_NewRequest c ctx MethodGet urlStr None s = ((req, Some e), s1).

(** The request was built and [Do], called on it with the target holding
    [v0], gives the response [resp] and a non-nil error. *)
Definition doFails (ctx : Ctx) (urlStr : string) (tk : targetKind)
  (v0 : pointee tk) (s : St) (resp : option Response)
  (e : @error Response ExtErr) : Prop :=
  exists req s1 v s2,
    client_NewRequest c ctx MethodGet urlStr None s = ((req, None), s1)
    /\ client_Do c req tk v0 s1 = ((v, resp, Some e), s2).

(** The request was built and [Do], called on it with the target holding
    [v0], leaves [v] in the target and gives the response [resp] and a nil
    error. *)
Definition doSucceeds (ctx : Ctx) (urlStr : string) (tk : targetKind)
  (v0 : pointee tk) (s : St) (v : pointee tk) (resp : option Response) : Prop :=
  exists req s1 s2,
    client_NewRequest c ctx MethodGet urlStr None s = ((req, None), s1)
    /\ client_Do c req tk v0 s1 = ((v, resp, @None (@error Response ExtErr)), s2).

Lemma run_GetList_unbuilt :
  forall ctx s req e s1,
    client_NewRequest c ctx MethodGet "/rest/api/3/statuscategory" None s
      = ((req, Some e), s1) ->
    run c (GetList ctx) s
      = ((None, None, Some e), s1,
         [NewRequestCalled ctx MethodGet "/rest/api/3/statuscategory" None]).
Proof.
  intros ctx s req e s1 Hnew.
  unfold GetList. cbn. rewrite Hnew. reflexivity.
Qed.

Lemma run_GetList_built :
  forall ctx s req s1 v resp err s2,
    client_NewRequest c ctx MethodGet "/rest/api/3/statuscategory" None s
      = ((req, None), s1) ->
    client_Do c req SliceTarget None s1 = ((v, resp, err), s2) ->
    run c (GetList ctx) s
      = (match err with
         | Some e => (None, resp, Some (NewJiraError resp e))
         | None => (v, resp, None)
         end, s2,
         [NewRequestCalled ctx MethodGet "/rest/api/3/statuscategory" None;
          DoCalled req SliceTarget None]).
Proof.
  intros ctx s req s1 v resp err s2 Hnew Hdo.
  unfold GetList. cbn. rewrite Hnew. cbn. rewrite Hdo.
  destruct err; reflexivity.
Qed.

Lemma Get_nonempty_eqb :
  forall statusCategoryID : string,
    statusCategoryID <> "" -> String.eqb statusCategoryID "" = false.
Proof.
  intros id Hid. apply String.eqb_neq. exact Hid.
Qed.

Lemma run_Get_unbuilt :
  forall ctx id s req e s1,
    id <> "" ->
    client_NewRequest c ctx MethodGet ("/rest/api/3/statuscategory/" ++ id) None s
      = ((req, Some e), s1) ->
    run c (Get ctx id) s
      = ((None, None, Some e), s1,
         [NewRequestCalled ctx MethodGet ("/rest/api/3/statuscategory/" ++ id) None]).
Proof.
  intros ctx id s req e s1 Hid Hnew.
  unfold Get. rewrite (Get_nonempty_eqb id Hid).
  cbn. cbn in Hnew. rewrite Hnew. reflexivity.
Qed.

Lemma run_Get_built :
  forall ctx id s req s1 v resp err s2,
    id <> "" ->
    client_NewRequest c ctx MethodGet ("/rest/api/3/statuscategory/" ++ id) None s
      = ((req, None), s1) ->
    client_Do c req StructTarget zeroStatusCategory s1 = ((v, resp, err), s2) ->
    run c (Get ctx id) s
      = (match err with
         | Some e => (None, resp, Some (NewJiraError resp e))
         | None => (Some v, resp, None)
         end, s2,
         [NewRequestCalled ctx MethodGet ("/rest/api/3/statuscategory/" ++ id) None;
          DoCalled req StructTarget zeroStatusCategory]).
Proof.
  intros ctx id s req s1 v resp err s2 Hid Hnew Hdo.
  unfold Get. rewrite (Get_nonempty_eqb id Hid).
  cbn. cbn in Hnew. rewrite Hnew.
  cbn. rewrite Hdo. destruct err; reflexivity.
Qed.

Lemma substring_whole :
  forall s : string, substring 0 (String.length s) s = s.
Proof.
  induction s as [| a s IH]; cbn; [reflexivity | now rewrite IH].
Qed.

(** ** The empty identifier *)

(** C1: for the empty identifier [Get] returns at once: it makes no call on
    the client (neither [NewRequest] nor [Do]), leaves the client's state
    as it was, and returns a nil status category, a nil response and an
    error made by [errors.New], not an API error. *)
Theorem Get_empty_no_call :
  forall (ctx : Ctx) (s : St),
    @Get Ctx Request Response ExtErr ctx ""
      = Ret (None, None, Some (errors_New "jira: not status category set"))
    /\ callsMade (run c (Get ctx "") s) = []
    /\ countNewRequest (callsMade (run c (Get ctx "") s)) = 0
    /\ countDo (callsMade (run c (Get ctx "") s)) = 0
    /\ finalState (run c (Get ctx "") s) = s
    /\ valueOf (returned (run c (Get ctx "") s)) = None
    /\ responseOf (returned (run c (Get ctx "") s)) = None
    /\ (exists e, errorOf (returned (run c (Get ctx "") s)) = Some e
                  /\ isAPIError e = false /\ errorText e <> None).
Proof.
  intros ctx s. cbn.
  repeat split.
  exists (errors_New "jira: not status category set").
  repeat split. discriminate.
Qed.

(** C2 (as amended): the error [Get] returns for the empty identifier is the
    one made by [errors.New] with the text "jira: not status category set";
    the text names the status category. *)
Theorem Get_empty_error_text :
  forall (ctx : Ctx) (s : St),
    errorOf (returned (run c (Get ctx "") s))
      = Some (errors_New "jira: not status category set")
    /\ (exists e, errorOf (returned (run c (Get ctx "") s)) = Some e
                  /\ errorText e = Some "jira: not status category set")
    /\ strings_Contains "jira: not status category set" "status category" = true.
Proof.
  intros ctx s. cbn. split; [reflexivity | split; [| reflexivity]].
  eexists; split; reflexivity.
Qed.

(** ** The requests the methods issue *)

(** C3 (as amended): for a non-empty identifier, [Get] calls [NewRequest]
    exactly once, for a GET with no body whose path is
    "/rest/api/3/statuscategory/" followed by the identifier as it is (the
    characters after the prefix are those of the identifier, none escaped).
    When [NewRequest] gives a nil error the request is executed exactly
    once, by the one call to [Do]; when it gives an error there is no call
    to [Do] and no request is issued.  Nothing else is called. *)
Theorem Get_issues_one_GET :
  forall (ctx : Ctx) (statusCategoryID : string) (s : St),
    statusCategoryID <> "" ->
    let apiEndpoint := "/rest/api/3/statuscategory/" ++ statusCategoryID in
    let made := callsMade (run c (Get ctx statusCategoryID) s) in
    let built := fst (client_NewRequest c ctx "GET" apiEndpoint None s) in
    made = NewRequestCalled ctx "GET" apiEndpoint None ::
           match snd built with
           | None => [DoCalled (fst built) StructTarget zeroStatusCategory]
           | Some _ => []
           end
    /\ countNewRequest made = 1
    /\ countDo made <= 1
    /\ (snd built = None -> countDo made = 1)
    /\ String.length apiEndpoint = 27 + String.length statusCategoryID
    /\ substring 27 (String.length statusCategoryID) apiEndpoint = statusCategoryID.
Proof.
  intros ctx id s Hid apiEndpoint made built.
  assert (Hmade : made = NewRequestCalled ctx "GET" apiEndpoint None ::
           match snd built with
           | None => [DoCalled (fst built) StructTarget zeroStatusCategory]
           | Some _ => []
           end).
  { subst made built.
    destruct (client_NewRequest c ctx "GET" apiEndpoint None s)
      as [[req [e |]] s1] eqn:Hnew.
    - rewrite (run_Get_unbuilt ctx id s req e s1 Hid Hnew). reflexivity.
    - destruct (client_Do c req StructTarget zeroStatusCategory s1)
        as [[[v resp] err] s2] eqn:Hdo.
      rewrite (run_Get_built ctx id s req s1 v resp err s2 Hid Hnew Hdo).
      reflexivity. }
  split; [exact Hmade |].
  rewrite Hmade.
  repeat split.
  - destruct (snd built); reflexivity.
  - destruct (snd built); cbn; lia.
  - intros Hnone. rewrite Hnone. reflexivity.
  - subst apiEndpoint. cbn. rewrite substring_whole. reflexivity.
Qed.

(** C4 (as amended): whatever the context, the client and its state,
    [GetList] calls [NewRequest] exactly once, for a GET on the fixed path
    "/rest/api/3/statuscategory" with no body.  When [NewRequest] gives a
    nil error the request is executed exactly once, by the one call to
    [Do]; when it gives an error there is no call to [Do] and no request is
    issued.  Nothing else is called. *)
Theorem GetList_issues_one_GET :
  forall (ctx : Ctx) (s : St),
    let made := callsMade (run c (GetList ctx) s) in
    let built := fst (client_NewRequest c ctx "GET" "/rest/api/3/statuscategory" None s) in
    made = NewRequestCalled ctx "GET" "/rest/api/3/statuscategory" None ::
           match snd built with
           | None => [DoCalled (fst built) SliceTarget None]
           | Some _ => []
           end
    /\ countNewRequest made = 1
    /\ countDo made <= 1
    /\ (snd built = None -> countDo made = 1).
Proof.
  intros ctx s made built.
  assert (Hmade : made = NewRequestCalled ctx "GET" "/rest/api/3/statuscategory" None ::
           match snd built with
           | None => [DoCalled (fst built) SliceTarget None]
           | Some _ => []
           end).
  { subst made built.
    destruct (client_NewRequest c ctx "GET" "/rest/api/3/statuscategory" None s)
      as [[req [e |]] s1] eqn:Hnew.
    - rewrite (run_GetList_unbuilt ctx s req e s1 Hnew). reflexivity.
    - destruct (client_Do c req SliceTarget None s1)
        as [[[v resp] err] s2] eqn:Hdo.
      rewrite (run_GetList_built ctx s req s1 v resp err s2 Hnew Hdo).
      reflexivity. }
  split; [exact Hmade |].
  rewrite Hmade.
  repeat split.
  - destruct (snd built); reflexivity.
  - destruct (snd built); cbn; lia.
  - intros Hnone. rewrite Hnone. reflexivity.
Qed.

(** ** Failures *)

Lemma APIError_not_itself :
  forall (e : @error Response ExtErr) (resp : option Response),
    APIError resp e <> e.
Proof.
  induction e as [text | x | resp0 e IH]; intros resp Heq; try discriminate.
  injection Heq as Hresp He. exact (IH resp0 He).
Qed.

(** C5: when the request was built and [Do] fails on it, [GetList] returns
    a nil slice and [Get] a nil pointer, each with a non-nil error, the API
    error [NewJiraError] makes of the response and the failure: it embeds
    the response [Do] returned and wraps the error [Do] returned. *)
Theorem Do_failure_gives_APIError :
  forall (ctx : Ctx) (s : St) (resp : option Response)
         (e : @error Response ExtErr),
    (doFails ctx "/rest/api/3/statuscategory" SliceTarget None s resp e ->
     let r := returned (run c (GetList ctx) s) in
     valueOf r = None
     /\ errorOf r = Some (NewJiraError resp e)
     /\ exists e', errorOf r = Some e' /\ isAPIError e' = true
                   /\ embeddedResponse e' = Some resp
                   /\ wrappedError e' = Some e)
    /\ (forall statusCategoryID : string,
          statusCategoryID <> "" ->
          doFails ctx ("/rest/api/3/statuscategory/" ++ statusCategoryID)
            StructTarget zeroStatusCategory s resp e ->
          let r := returned (run c (Get ctx statusCategoryID) s) in
          valueOf r = None
          /\ errorOf r = Some (NewJiraError resp e)
          /\ exists e', errorOf r = Some e' /\ isAPIError e' = true
                        /\ embeddedResponse e' = Some resp
                        /\ wrappedError e' = Some e).
Proof.
  intros ctx s resp e. split.
  - intros (req & s1 & v & s2 & Hnew & Hdo) r. subst r.
    rewrite (run_GetList_built ctx s req s1 v resp (Some e) s2 Hnew Hdo).
    cbn. repeat split. eexists; repeat split.
  - intros id Hid (req & s1 & v & s2 & Hnew & Hdo) r. subst r.
    rewrite (run_Get_built ctx id s req s1 v resp (Some e) s2 Hid Hnew Hdo).
    cbn. repeat split. eexists; repeat split.
Qed.

(** C6: when [NewRequest] fails, [GetList] and [Get] return the error it
    gave, as it is and not made into an API error, with a nil value and a
    nil response; [Do] is not called. *)
Theorem NewRequest_failure_propagated :
  forall (ctx : Ctx) (s : St) (e : @error Response ExtErr),
    (newRequestFails ctx "/rest/api/3/statuscategory" s e ->
     let r := run c (GetList ctx) s in
     returned r = (None, None, Some e)
     /\ (forall resp, errorOf (returned r) <> Some (NewJiraError resp e))
     /\ countDo (callsMade r) = 0)
    /\ (forall statusCategoryID : string,
          statusCategoryID <> "" ->
          newRequestFails ctx ("/rest/api/3/statuscategory/" ++ statusCategoryID) s e ->
          let r := run c (Get ctx statusCategoryID) s in
          returned r = (None, None, Some e)
          /\ (forall resp, errorOf (returned r) <> Some (NewJiraError resp e))
          /\ countDo (callsMade r) = 0).
Proof.
  intros ctx s e. split.
  - intros (req & s1 & Hnew) r. subst r.
    rewrite (run_GetList_unbuilt ctx s req e s1 Hnew). cbn.
    repeat split. intros resp Heq. injection Heq as Heq.
    symmetry in Heq. exact (APIError_not_itself e resp Heq).
  - intros id Hid (req & s1 & Hnew) r. subst r.
    rewrite (run_Get_unbuilt ctx id s req e s1 Hid Hnew). cbn.
    repeat split. intros resp Heq. injection Heq as Heq.
    symmetry in Heq. exact (APIError_not_itself e resp Heq).
Qed.

(** C10: when [Do] fails, the response [GetList] and [Get] return as their
    second value is the response [Do] returned, and it is the very response
    the returned API error embeds. *)
Theorem Do_failure_response_twice :
  forall (ctx : Ctx) (s : St) (resp : option Response)
         (e : @error Response ExtErr),
    (doFails ctx "/rest/api/3/statuscategory" SliceTarget None s resp e ->
     let r := returned (run c (GetList ctx) s) in
     responseOf r = resp
     /\ exists e', errorOf r = Some e'
                   /\ embeddedResponse e' = Some (responseOf r))
    /\ (forall statusCategoryID : string,
          statusCategoryID <> "" ->
          doFails ctx ("/rest/api/3/statuscategory/" ++ statusCategoryID)
            StructTarget zeroStatusCategory s resp e ->
          let r := returned (run c (Get ctx statusCategoryID) s) in
          responseOf r = resp
          /\ exists e', errorOf r = Some e'
                        /\ embeddedResponse e' = Some (responseOf r)).
Proof.
  intros ctx s resp e. split.
  - intros (req & s1 & v & s2 & Hnew & Hdo) r. subst r.
    rewrite (run_GetList_built ctx s req s1 v resp (Some e) s2 Hnew Hdo).
    cbn. split; [reflexivity |]. eexists; split; reflexivity.
  - intros id Hid (req & s1 & v & s2 & Hnew & Hdo) r. subst r.
    rewrite (run_Get_built ctx id s req s1 v resp (Some e) s2 Hid Hnew Hdo).
    cbn. split; [reflexivity |]. eexists; split; reflexivity.
Qed.

(** ** Successful calls *)

(** C9: when [Get] returns a nil error, its first value is not nil: the
    request was built, [Do] succeeded on it, and the value is the pointer to
    the struct allocated before the call, holding whatever [Do] left in it
    (the zero struct when [Do] wrote nothing). *)
Theorem Get_nil_error_value_not_nil :
  forall (ctx : Ctx) (statusCategoryID : string) (s : St),
    errorOf (returned (run c (Get ctx statusCategoryID) s)) = None ->
    valueOf (returned (run c (Get ctx statusCategoryID) s)) <> None
    /\ exists req s1 v resp s2,
         client_NewRequest c ctx MethodGet
           ("/rest/api/3/statuscategory/" ++ statusCategoryID) None s
           = ((req, None), s1)
         /\ client_Do c req StructTarget zeroStatusCategory s1
            = ((v, resp, None), s2)
         /\ returned (run c (Get ctx statusCategoryID) s) = (Some v, resp, None).
Proof.
  intros ctx id s Herr.
  destruct (String.eqb_spec id "") as [Hid | Hid].
  - subst id. cbn in Herr. discriminate.
  - destruct (client_NewRequest c ctx MethodGet
                ("/rest/api/3/statuscategory/" ++ id) None s)
      as [[req [e |]] s1] eqn:Hnew.
    + rewrite (run_Get_unbuilt ctx id s req e s1 Hid Hnew) in Herr.
      cbn in Herr. discriminate.
    + destruct (client_Do c req StructTarget zeroStatusCategory s1)
        as [[[v resp] [e |]] s2] eqn:Hdo.
      * rewrite (run_Get_built ctx id s req s1 v resp _ s2 Hid Hnew Hdo) in Herr.
        cbn in Herr. discriminate.
      * rewrite (run_Get_built ctx id s req s1 v resp _ s2 Hid Hnew Hdo).
        cbn. split; [discriminate |].
        exists req, s1, v, resp, s2. auto.
Qed.

(** C8: when the request was built and [Do] succeeds with the target
    holding what the array of the spec's example decodes to under the field
    mapping self, id, name, key, colorName, [GetList] returns a slice of one
    element with Self "http://x/1", ID 1, Name "To Do", Key "new" and
    ColorName "blue-gray", the response [Do] returned and a nil error. *)
Theorem GetList_example_round_trip :
  forall (ctx : Ctx) (s : St) (req : Request) (s1 : St)
         (v : pointee SliceTarget) (resp : option Response) (s2 : St),
    client_NewRequest c ctx MethodGet "/rest/api/3/statuscategory" None s
      = ((req, None), s1) ->
    Unmarshal SliceTarget exampleListDoc None = Some v ->
    client_Do c req SliceTarget None s1 = ((v, resp, None), s2) ->
    returned (run c (GetList ctx) s)
      = (Some [ {| Self := "http://x/1"; ID := 1; Name := "To Do";
                   Key := "new"; ColorName := "blue-gray" |} ],
         resp, None)
    /\ (exists sc, valueOf (returned (run c (GetList ctx) s)) = Some [sc]
                   /\ Self sc = "http://x/1" /\ ID sc = 1%Z
                   /\ Name sc = "To Do" /\ Key sc = StatusCategoryToDo
                   /\ ColorName sc = "blue-gray").
Proof.
  intros ctx s req s1 v resp s2 Hnew Hdec Hdo.
  rewrite (run_GetList_built ctx s req s1 v resp None s2 Hnew Hdo).
  cbn in Hdec. injection Hdec as Hv. subst v. cbn.
  split; [reflexivity |].
  eexists; repeat split.
Qed.

End Runs.

(** ** The well-known keys *)

(** C7: the four key constants are "done", "indeterminate", "new" and
    "undefined"; they differ from one another, and comparing the [Key] of a
    category with a constant tells whether the key is that string. *)
Theorem well_known_keys :
  StatusCategoryComplete = "done"
  /\ StatusCategoryInProgress = "indeterminate"
  /\ StatusCategoryToDo = "new"
  /\ StatusCategoryUndefined = "undefined"
  /\ NoDup [StatusCategoryComplete; StatusCategoryInProgress;
            StatusCategoryToDo; StatusCategoryUndefined]
  /\ (forall sc : StatusCategory,
        (String.eqb (Key sc) StatusCategoryComplete = true <-> Key sc = "done")
        /\ (String.eqb (Key sc) StatusCategoryInProgress = true
            <-> Key sc = "indeterminate")
        /\ (String.eqb (Key sc) StatusCategoryToDo = true <-> Key sc = "new")
        /\ (String.eqb (Key sc) StatusCategoryUndefined = true
            <-> Key sc = "undefined")).
Proof.
  repeat split; try apply String.eqb_eq.
  repeat constructor; cbn; intuition discriminate.
Qed.

(** ** The methods on the test double *)

(** The text the spec gives for the error of the empty identifier is not
    the text of the error [Get] returns. *)
Lemma Get_empty_error_text_differs :
  ~ (exists e,
        errorOf (returned (run Mock.client (Get tt "") Mock.up)) = Some e
        /\ errorText e = Some "no status category identifier set").
Proof.
  intros (e & He & Htext). cbn in He. injection He as He. subst e.
  cbn in Htext. discriminate.
Qed.

(** On a client that cannot build requests, [Get] with the non-empty
    identifier "3" calls [NewRequest] and stops: [Do] is not called, so it is
    not so that one request is issued for every non-empty identifier. *)
Lemma Get_unbuilt_request_not_issued :
  "3" <> ""
  /\ callsMade (run Mock.client (Get tt "3") Mock.broken)
     = [NewRequestCalled tt "GET" "/rest/api/3/statuscategory/3" None]
  /\ countDo (callsMade (run Mock.client (Get tt "3") Mock.broken)) = 0
  /\ ~ (forall (statusCategoryID : string) (s : Mock.Server),
          statusCategoryID <> "" ->
          countDo (callsMade (run Mock.client (Get tt statusCategoryID) s)) = 1).
Proof.
  assert (Hid : "3" <> "") by discriminate.
  repeat split; try exact Hid.
  intros Hall. specialize (Hall "3" Mock.broken Hid).
  cbn in Hall. discriminate.
Qed.

(** On a client that cannot build requests, [GetList] calls [NewRequest]
    and stops: [Do] is not called, so whether a request is issued depends
    on the state of the client. *)
Lemma GetList_unbuilt_request_not_issued :
  callsMade (run Mock.client (GetList tt) Mock.broken)
    = [NewRequestCalled tt "GET" "/rest/api/3/statuscategory" None]
  /\ countDo (callsMade (run Mock.client (GetList tt) Mock.broken)) = 0
  /\ countDo (callsMade (run Mock.client (GetList tt) Mock.up)) = 1
  /\ ~ (forall s : Mock.Server,
          countDo (callsMade (run Mock.client (GetList tt) s)) = 1).
Proof.
  repeat split.
  intros Hall. specialize (Hall Mock.broken).
  cbn in Hall. discriminate.
Qed.

(** An identifier with a space, a slash, a question mark and a percent sign
    goes into the path unchanged. *)
Lemma Get_issues_one_GET_witness :
  "a b/c?d%" <> ""
  /\ callsMade (run Mock.client (Get tt "a b/c?d%") Mock.down)
     = [NewRequestCalled tt "GET" "/rest/api/3/statuscategory/a b/c?d%" None;
        DoCalled (Some ("GET", "/rest/api/3/statuscategory/a b/c?d%"))
          StructTarget zeroStatusCategory]
  /\ countNewRequest (callsMade (run Mock.client (Get tt "a b/c?d%") Mock.down)) = 1.
Proof.
  assert (Hid : "a b/c?d%" <> "") by discriminate.
  split; [exact Hid |].
  destruct (Get_issues_one_GET Mock.Server Mock.client tt "a b/c?d%" Mock.down Hid)
    as (Hmade & Hcount & _).
  split; [exact Hmade | exact Hcount].
Defined.

(** The service is down for the list, and answers 500 for the category
    "gone". *)
Lemma Do_failure_gives_APIError_witness :
  (doFails Mock.Server Mock.client tt "/rest/api/3/statuscategory"
     SliceTarget None Mock.down (Some 404%Z) (externalError "404 Not Found")
   /\ valueOf (returned (run Mock.client (GetList tt) Mock.down)) = None
   /\ errorOf (returned (run Mock.client (GetList tt) Mock.down))
      = Some (NewJiraError (Some 404%Z) (externalError "404 Not Found")))
  /\ ("gone" <> ""
      /\ doFails Mock.Server Mock.client tt "/rest/api/3/statuscategory/gone"
           StructTarget zeroStatusCategory Mock.up (Some 500%Z)
           (externalError "request failed")
      /\ valueOf (returned (run Mock.client (Get tt "gone") Mock.up)) = None
      /\ errorOf (returned (run Mock.client (Get tt "gone") Mock.up))
         = Some (NewJiraError (Some 500%Z) (externalError "request failed"))).
Proof.
  assert (Hlist : doFails Mock.Server Mock.client tt "/rest/api/3/statuscategory"
            SliceTarget None Mock.down (Some 404%Z) (externalError "404 Not Found")).
  { exists (Some ("GET", "/rest/api/3/statuscategory")), Mock.down, None,
      (Mock.serve "/rest/api/3/statuscategory" Mock.down).
    split; reflexivity. }
  assert (Hid : "gone" <> "") by discriminate.
  assert (Hget : doFails Mock.Server Mock.client tt "/rest/api/3/statuscategory/gone"
            StructTarget zeroStatusCategory Mock.up (Some 500%Z)
            (externalError "request failed")).
  { exists (Some ("GET", "/rest/api/3/statuscategory/gone")), Mock.up,
      zeroStatusCategory, (Mock.serve "/rest/api/3/statuscategory/gone" Mock.up).
    split; reflexivity. }
  destruct (Do_failure_gives_APIError Mock.Server Mock.client tt Mock.down
              (Some 404%Z) (externalError "404 Not Found")) as [Plist _].
  destruct (Do_failure_gives_APIError Mock.Server Mock.client tt Mock.up
              (Some 500%Z) (externalError "request failed")) as [_ Pget].
  destruct (Plist Hlist) as (Hv1 & He1 & _).
  destruct (Pget "gone" Hid Hget) as (Hv2 & He2 & _).
  repeat split; assumption.
Defined.

(** A client that cannot build requests. *)
Lemma NewRequest_failure_propagated_witness :
  (newRequestFails Mock.Server Mock.client tt "/rest/api/3/statuscategory"
     Mock.broken (externalError "parse base url")
   /\ returned (run Mock.client (GetList tt) Mock.broken)
      = (None, None, Some (externalError "parse base url")))
  /\ ("3" <> ""
      /\ newRequestFails Mock.Server Mock.client tt "/rest/api/3/statuscategory/3"
           Mock.broken (externalError "parse base url")
      /\ returned (run Mock.client (Get tt "3") Mock.broken)
         = (None, None, Some (externalError "parse base url"))).
Proof.
  assert (Hlist : newRequestFails Mock.Server Mock.client tt
            "/rest/api/3/statuscategory" Mock.broken (externalError "parse base url")).
  { exists None, Mock.broken. reflexivity. }
  assert (Hid : "3" <> "") by discriminate.
  assert (Hget : newRequestFails Mock.Server Mock.client tt
            "/rest/api/3/statuscategory/3" Mock.broken (externalError "parse base url")).
  { exists None, Mock.broken. reflexivity. }
  destruct (NewRequest_failure_propagated Mock.Server Mock.client tt Mock.broken
              (externalError "parse base url")) as [Plist Pget].
  destruct (Plist Hlist) as (Hr1 & _).
  destruct (Pget "3" Hid Hget) as (Hr2 & _).
  repeat split; assumption.
Defined.

(** The failed response comes back twice. *)
Lemma Do_failure_response_twice_witness :
  (doFails Mock.Server Mock.client tt "/rest/api/3/statuscategory"
     SliceTarget None Mock.down (Some 404%Z) (externalError "404 Not Found")
   /\ responseOf (returned (run Mock.client (GetList tt) Mock.down)) = Some 404%Z)
  /\ ("gone" <> ""
      /\ doFails Mock.Server Mock.client tt "/rest/api/3/statuscategory/gone"
           StructTarget zeroStatusCategory Mock.up (Some 500%Z)
           (externalError "request failed")
      /\ responseOf (returned (run Mock.client (Get tt "gone") Mock.up)) = Some 500%Z).
Proof.
  assert (Hlist : doFails Mock.Server Mock.client tt "/rest/api/3/statuscategory"
            SliceTarget None Mock.down (Some 404%Z) (externalError "404 Not Found")).
  { exists (Some ("GET", "/rest/api/3/statuscategory")), Mock.down, None,
      (Mock.serve "/rest/api/3/statuscategory" Mock.down).
    split; reflexivity. }
  assert (Hid : "gone" <> "") by discriminate.
  assert (Hget : doFails Mock.Server Mock.client tt "/rest/api/3/statuscategory/gone"
            StructTarget zeroStatusCategory Mock.up (Some 500%Z)
            (externalError "request failed")).
  { exists (Some ("GET", "/rest/api/3/statuscategory/gone")), Mock.up,
      zeroStatusCategory, (Mock.serve "/rest/api/3/statuscategory/gone" Mock.up).
    split; reflexivity. }
  destruct (Do_failure_response_twice Mock.Server Mock.client tt Mock.down
              (Some 404%Z) (externalError "404 Not Found")) as [Plist _].
  destruct (Do_failure_response_twice Mock.Server Mock.client tt Mock.up
              (Some 500%Z) (externalError "request failed")) as [_ Pget].
  destruct (Plist Hlist) as (Hr1 & _).
  destruct (Pget "gone" Hid Hget) as (Hr2 & _).
  repeat split; assumption.
Defined.

(** A body that is the empty object: [Get] returns the zero struct, not nil. *)
Lemma Get_nil_error_value_not_nil_witness :
  errorOf (returned (run Mock.client (Get tt "bare") Mock.up)) = None
  /\ valueOf (returned (run Mock.client (Get tt "bare") Mock.up)) <> None.
Proof.
  assert (Herr : errorOf (returned (run Mock.client (Get tt "bare") Mock.up)) = None)
    by reflexivity.
  split; [exact Herr |].
  exact (proj1 (Get_nil_error_value_not_nil Mock.Server Mock.client tt "bare"
                  Mock.up Herr)).
Defined.

(** The service answers the list path with the array of the example. *)
Lemma GetList_example_round_trip_witness :
  client_NewRequest Mock.client tt MethodGet "/rest/api/3/statuscategory" None Mock.up
    = ((Some ("GET", "/rest/api/3/statuscategory"), None), Mock.up)
  /\ returned (run Mock.client (GetList tt) Mock.up)
     = (Some [ {| Self := "http://x/1"; ID := 1; Name := "To Do";
                  Key := "new"; ColorName := "blue-gray" |} ],
        Some 200%Z, None).
Proof.
  split; [reflexivity |].
  exact (proj1 (GetList_example_round_trip Mock.Server Mock.client tt Mock.up
                  (Some ("GET", "/rest/api/3/statuscategory")) Mock.up
                  (Some [mkStatusCategory "http://x/1" 1 "To Do" "new" "blue-gray"])
                  (Some 200%Z)
                  (Mock.serve "/rest/api/3/statuscategory" Mock.up)
                  eq_refl eq_refl eq_refl)).
Defined.

(** The spec's example of a single category: fetched by id or by key, its
    key is the constant [StatusCategoryComplete]. *)
Example Get_done_example :
  valueOf (returned (run Mock.client (Get tt "3") Mock.up))
    = Some (mkStatusCategory "http://x/3" 3 "Done" StatusCategoryComplete "green")
  /\ valueOf (returned (run Mock.client (Get tt "done") Mock.up))
     = Some (mkStatusCategory "http://x/3" 3 "Done" StatusCategoryComplete "green").
Proof.
  split; reflexivity.
Qed.

(** ** The outcomes of a call, case by case *)

Section Outcomes.

Context {Ctx Request Response ExtErr : Type}.
Variable St : Type.
Variable c : @Client Ctx Request Response ExtErr St.

(** A run of [GetList] ends in one of three ways. *)
Lemma run_GetList_cases :
  forall (ctx : Ctx) (s : St),
    (exists e, newRequestFails St c ctx "/rest/api/3/statuscategory" s e
               /\ returned (run c (GetList ctx) s) = (None, None, Some e)
               /\ countDo (callsMade (run c (GetList ctx) s)) = 0)
    \/ (exists resp e,
           doFails St c ctx "/rest/api/3/statuscategory" SliceTarget None s resp e
           /\ returned (run c (GetList ctx) s)
              = (None, resp, Some (NewJiraError resp e))
           /\ countDo (callsMade (run c (GetList ctx) s)) = 1)
    \/ (exists v resp,
           doSucceeds St c ctx "/rest/api/3/statuscategory" SliceTarget None s v resp
           /\ returned (run c (GetList ctx) s) = (v, resp, None)
           /\ countDo (callsMade (run c (GetList ctx) s)) = 1).
Proof.
  intros ctx s.
  destruct (client_NewRequest c ctx MethodGet "/rest/api/3/statuscategory" None s)
    as [[req [e |]] s1] eqn:Hnew.
  - left. exists e. rewrite (run_GetList_unbuilt St c ctx s req e s1 Hnew).
    split; [exists req, s1; exact Hnew | split; reflexivity].
  - destruct (client_Do c req SliceTarget None s1)
      as [[[v resp] [e |]] s2] eqn:Hdo;
      rewrite (run_GetList_built St c ctx s req s1 v resp _ s2 Hnew Hdo).
    + right; left. exists resp, e.
      split; [exists req, s1, v, s2; auto | split; reflexivity].
    + right; right. exists v, resp.
      split; [exists req, s1, s2; auto | split; reflexivity].
Qed.

(** A run of [Get] on a non-empty identifier ends in one of three ways. *)
Lemma run_Get_cases :
  forall (ctx : Ctx) (id : string) (s : St),
    id <> "" ->
    let urlStr := "/rest/api/3/statuscategory/" ++ id in
    (exists e, newRequestFails St c ctx urlStr s e
               /\ returned (run c (Get ctx id) s) = (None, None, Some e)
               /\ countDo (callsMade (run c (Get ctx id) s)) = 0)
    \/ (exists resp e,
           doFails St c ctx urlStr StructTarget zeroStatusCategory s resp e
           /\ returned (run c (Get ctx id) s)
              = (None, resp, Some (NewJiraError resp e))
           /\ countDo (callsMade (run c (Get ctx id) s)) = 1)
    \/ (exists v resp,
           doSucceeds St c ctx urlStr StructTarget zeroStatusCategory s v resp
           /\ returned (run c (Get ctx id) s) = (Some v, resp, None)
           /\ countDo (callsMade (run c (Get ctx id) s)) = 1).
Proof.
  intros ctx id s Hid urlStr. subst urlStr.
  destruct (client_NewRequest c ctx MethodGet
              ("/rest/api/3/statuscategory/" ++ id) None s)
    as [[req [e |]] s1] eqn:Hnew.
  - left. exists e. rewrite (run_Get_unbuilt St c ctx id s req e s1 Hid Hnew).
    split; [exists req, s1; exact Hnew | split; reflexivity].
  - destruct (client_Do c req StructTarget zeroStatusCategory s1)
      as [[[v resp] [e |]] s2] eqn:Hdo;
      rewrite (run_Get_built St c ctx id s req s1 v resp _ s2 Hid Hnew Hdo).
    + right; left. exists resp, e.
      split; [exists req, s1, v, s2; auto | split; reflexivity].
    + right; right. exists v, resp.
      split; [exists req, s1, s2; auto | split; reflexivity].
Qed.

Lemma callsMade_Get_head :
  forall (ctx : Ctx) (id : string) (s : St),
    id <> "" ->
    exists rest,
      callsMade (run c (Get ctx id) s)
        = NewRequestCalled ctx MethodGet ("/rest/api/3/statuscategory/" ++ id) None
          :: rest
      /\ countNewRequest (callsMade (run c (Get ctx id) s)) = 1.
Proof.
  intros ctx id s Hid.
  destruct (client_NewRequest c ctx MethodGet
              ("/rest/api/3/statuscategory/" ++ id) None s)
    as [[req [e |]] s1] eqn:Hnew.
  - rewrite (run_Get_unbuilt St c ctx id s req e s1 Hid Hnew).
    exists []. split; reflexivity.
  - destruct (client_Do c req StructTarget zeroStatusCategory s1)
      as [[[v resp] err] s2] eqn:Hdo.
    rewrite (run_Get_built St c ctx id s req s1 v resp err s2 Hid Hnew Hdo).
    eexists. split; reflexivity.
Qed.

Lemma callsMade_GetList_head :
  forall (ctx : Ctx) (s : St),
    exists rest,
      callsMade (run c (GetList ctx) s)
        = NewRequestCalled ctx MethodGet "/rest/api/3/statuscategory" None :: rest.
Proof.
  intros ctx s.
  destruct (client_NewRequest c ctx MethodGet "/rest/api/3/statuscategory" None s)
    as [[req [e |]] s1] eqn:Hnew.
  - rewrite (run_GetList_unbuilt St c ctx s req e s1 Hnew).
    exists []. reflexivity.
  - destruct (client_Do c req SliceTarget None s1)
      as [[[v resp] err] s2] eqn:Hdo.
    rewrite (run_GetList_built St c ctx s req s1 v resp err s2 Hnew Hdo).
    eexists. reflexivity.
Qed.

(** *** Success *)

(** X1: when the request was built and [Do] succeeds, [GetList] returns the
    slice as [Do] left it (a nil slice when [Do] left it nil), the response
    of [Do] and a nil error. *)
Theorem GetList_returns_what_Do_left :
  forall (ctx : Ctx) (s : St) (v : pointee SliceTarget) (resp : option Response),
    doSucceeds St c ctx "/rest/api/3/statuscategory" SliceTarget None s v resp ->
    returned (run c (GetList ctx) s) = (v, resp, None).
Proof.
  intros ctx s v resp (req & s1 & s2 & Hnew & Hdo).
  rewrite (run_GetList_built St c ctx s req s1 v resp None s2 Hnew Hdo).
  reflexivity.
Qed.

(** X2: [Get] returns a nil error exactly when the identifier is not empty,
    the request was built and [Do] succeeded on it; the value returned is
    then the struct as [Do] left it, with the response of [Do]. *)
Theorem Get_nil_error_iff :
  forall (ctx : Ctx) (statusCategoryID : string) (s : St),
    (errorOf (returned (run c (Get ctx statusCategoryID) s)) = None
     <-> (statusCategoryID <> ""
          /\ exists v resp,
               doSucceeds St c ctx
                 ("/rest/api/3/statuscategory/" ++ statusCategoryID)
                 StructTarget zeroStatusCategory s v resp))
    /\ (forall v resp,
          statusCategoryID <> "" ->
          doSucceeds St c ctx ("/rest/api/3/statuscategory/" ++ statusCategoryID)
            StructTarget zeroStatusCategory s v resp ->
          returned (run c (Get ctx statusCategoryID) s) = (Some v, resp, None)).
Proof.
  intros ctx id s.
  assert (Hback : forall v resp,
            id <> "" ->
            doSucceeds St c ctx ("/rest/api/3/statuscategory/" ++ id)
              StructTarget zeroStatusCategory s v resp ->
            returned (run c (Get ctx id) s) = (Some v, resp, None)).
  { intros v resp Hid (req & s1 & s2 & Hnew & Hdo).
    rewrite (run_Get_built St c ctx id s req s1 v resp None s2 Hid Hnew Hdo).
    reflexivity. }
  split; [| exact Hback].
  split.
  - intros Herr.
    destruct (String.eqb_spec id "") as [Hid | Hid].
    + subst id. cbn in Herr. discriminate.
    + split; [exact Hid |].
      destruct (run_Get_cases ctx id s Hid)
        as [(e & _ & Hr & _) | [(resp & e & _ & Hr & _) | (v & resp & Hok & _)]].
      * rewrite Hr in Herr. discriminate.
      * rewrite Hr in Herr. discriminate.
      * exists v, resp. exact Hok.
  - intros (Hid & v & resp & Hok).
    rewrite (Hback v resp Hid Hok). reflexivity.
Qed.

(** X3: [GetList] returns a nil error exactly when the request was built and
    [Do] succeeded on it. *)
Theorem GetList_nil_error_iff :
  forall (ctx : Ctx) (s : St),
    errorOf (returned (run c (GetList ctx) s)) = None
    <-> exists v resp,
          doSucceeds St c ctx "/rest/api/3/statuscategory" SliceTarget None s v resp.
Proof.
  intros ctx s. split.
  - intros Herr.
    destruct (run_GetList_cases ctx s)
      as [(e & _ & Hr & _) | [(resp & e & _ & Hr & _) | (v & resp & Hok & _)]].
    + rewrite Hr in Herr. discriminate.
    + rewrite Hr in Herr. discriminate.
    + exists v, resp. exact Hok.
  - intros (v & resp & req & s1 & s2 & Hnew & Hdo).
    rewrite (run_GetList_built St c ctx s req s1 v resp None s2 Hnew Hdo).
    reflexivity.
Qed.

(** *** Value and error *)

(** X4: [Get] returns a nil value exactly when it returns a non-nil error:
    a caller gets a status category or an error, never both and never
    neither. *)
Theorem Get_value_nil_iff_error :
  forall (ctx : Ctx) (statusCategoryID : string) (s : St),
    valueOf (returned (run c (Get ctx statusCategoryID) s)) = None
    <-> errorOf (returned (run c (Get ctx statusCategoryID) s)) <> None.
Proof.
  intros ctx id s.
  destruct (String.eqb_spec id "") as [Hid | Hid].
  - subst id. cbn. split; [discriminate | reflexivity].
  - destruct (run_Get_cases ctx id s Hid)
      as [(e & _ & Hr & _) | [(resp & e & _ & Hr & _) | (v & resp & _ & Hr & _)]];
      rewrite Hr; cbn; split; try discriminate; try reflexivity.
    intros Hnot. exfalso. apply Hnot. reflexivity.
Qed.

(** X5: whenever [GetList] returns a non-nil error, whatever its origin, the
    slice it returns is nil. *)
Theorem GetList_error_nil_slice :
  forall (ctx : Ctx) (s : St),
    errorOf (returned (run c (GetList ctx) s)) <> None ->
    valueOf (returned (run c (GetList ctx) s)) = None.
Proof.
  intros ctx s Herr.
  destruct (run_GetList_cases ctx s)
    as [(e & _ & Hr & _) | [(resp & e & _ & Hr & _) | (v & resp & _ & Hr & _)]];
    rewrite Hr in *; cbn in *; try reflexivity.
  exfalso. apply Herr. reflexivity.
Qed.

(** *** Where an error or a response comes from *)

(** X6: an error returned by [Get] has one of three origins: the identifier
    is empty and the error is the one made by [errors.New]; or the
    identifier is not empty and the error is the one [NewRequest] gave; or
    the identifier is not empty, [Do] failed and the error is what
    [NewJiraError] makes of the response and the error of [Do]. *)
Theorem Get_error_origin :
  forall (ctx : Ctx) (statusCategoryID : string) (s : St)
         (e : @error Response ExtErr),
    errorOf (returned (run c (Get ctx statusCategoryID) s)) = Some e ->
    (statusCategoryID = "" /\ e = errors_New "jira: not status category set")
    \/ (statusCategoryID <> ""
        /\ newRequestFails St c ctx
             ("/rest/api/3/statuscategory/" ++ statusCategoryID) s e)
    \/ (statusCategoryID <> ""
        /\ exists resp e0,
             doFails St c ctx ("/rest/api/3/statuscategory/" ++ statusCategoryID)
               StructTarget zeroStatusCategory s resp e0
             /\ e = NewJiraError resp e0).
Proof.
  intros ctx id s e Herr.
  destruct (String.eqb_spec id "") as [Hid | Hid].
  - left. subst id. cbn in Herr. injection Herr as Herr. auto.
  - right.
    destruct (run_Get_cases ctx id s Hid)
      as [(e1 & Hfail & Hr & _)
         | [(resp & e1 & Hfail & Hr & _) | (v & resp & _ & Hr & _)]];
      rewrite Hr in Herr; cbn in Herr.
    + left. injection Herr as Herr. subst e1. auto.
    + right. injection Herr as Herr. split; [exact Hid |].
      exists resp, e1. auto.
    + discriminate.
Qed.

(** X7: an error returned by [GetList] is the one [NewRequest] gave, or
    [Do] failed and the error is what [NewJiraError] makes of the response
    and the error of [Do]. *)
Theorem GetList_error_origin :
  forall (ctx : Ctx) (s : St) (e : @error Response ExtErr),
    errorOf (returned (run c (GetList ctx) s)) = Some e ->
    newRequestFails St c ctx "/rest/api/3/statuscategory" s e
    \/ (exists resp e0,
          doFails St c ctx "/rest/api/3/statuscategory" SliceTarget None s resp e0
          /\ e = NewJiraError resp e0).
Proof.
  intros ctx s e Herr.
  destruct (run_GetList_cases ctx s)
    as [(e1 & Hfail & Hr & _)
       | [(resp & e1 & Hfail & Hr & _) | (v & resp & _ & Hr & _)]];
    rewrite Hr in Herr; cbn in Herr.
  - left. injection Herr as Herr. subst e1. exact Hfail.
  - right. injection Herr as Herr. exists resp, e1. auto.
  - discriminate.
Qed.

(** X8: a non-nil response returned by [Get] or [GetList] is the response
    the one call to [Do] returned: without a call to [Do] (empty identifier,
    request not built) the response is nil. *)
Theorem response_comes_from_Do :
  forall (ctx : Ctx) (s : St) (resp : Response),
    (responseOf (returned (run c (GetList ctx) s)) = Some resp ->
     countDo (callsMade (run c (GetList ctx) s)) = 1
     /\ exists req s1 v err s2,
          client_NewRequest c ctx MethodGet "/rest/api/3/statuscategory" None s
            = ((req, None), s1)
          /\ client_Do c req SliceTarget None s1 = ((v, Some resp, err), s2))
    /\ (forall statusCategoryID : string,
          responseOf (returned (run c (Get ctx statusCategoryID) s)) = Some resp ->
          statusCategoryID <> ""
          /\ countDo (callsMade (run c (Get ctx statusCategoryID) s)) = 1
          /\ exists req s1 v err s2,
               client_NewRequest c ctx MethodGet
                 ("/rest/api/3/statuscategory/" ++ statusCategoryID) None s
                 = ((req, None), s1)
               /\ client_Do c req StructTarget zeroStatusCategory s1
                  = ((v, Some resp, err), s2)).
Proof.
  intros ctx s resp. split.
  - intros Hresp.
    destruct (run_GetList_cases ctx s)
      as [(e1 & _ & Hr & _)
         | [(resp1 & e1 & (req & s1 & v & s2 & Hnew & Hdo) & Hr & Hn)
           | (v & resp1 & (req & s1 & s2 & Hnew & Hdo) & Hr & Hn)]];
      rewrite Hr in Hresp; cbn in Hresp; try discriminate; subst resp1;
      (split; [exact Hn |]).
    + exists req, s1, v, (Some e1), s2. auto.
    + exists req, s1, v, None, s2. auto.
  - intros id Hresp.
    destruct (String.eqb_spec id "") as [Hid | Hid].
    + subst id. cbn in Hresp. discriminate.
    + split; [exact Hid |].
      destruct (run_Get_cases ctx id s Hid)
        as [(e1 & _ & Hr & _)
           | [(resp1 & e1 & (req & s1 & v & s2 & Hnew & Hdo) & Hr & Hn)
             | (v & resp1 & (req & s1 & s2 & Hnew & Hdo) & Hr & Hn)]];
        rewrite Hr in Hresp; cbn in Hresp; try discriminate; subst resp1;
        (split; [exact Hn |]).
      * exists req, s1, v, (Some e1), s2. auto.
      * exists req, s1, v, None, s2. auto.
Qed.

(** *** The requests *)

(** X9: [Get] makes no call on the client exactly when the identifier is
    empty. *)
Theorem Get_no_call_iff_empty :
  forall (ctx : Ctx) (statusCategoryID : string) (s : St),
    callsMade (run c (Get ctx statusCategoryID) s) = []
    <-> statusCategoryID = "".
Proof.
  intros ctx id s. split.
  - intros Hcalls.
    destruct (String.eqb_spec id "") as [Hid | Hid]; [exact Hid |].
    destruct (callsMade_Get_head ctx id s Hid) as (rest & Hhead & _).
    rewrite Hhead in Hcalls. discriminate.
  - intros Hid. subst id. reflexivity.
Qed.

(** X10: two different non-empty identifiers make [Get] build two different
    requests: the path of the request determines the identifier. *)
Theorem Get_distinct_ids_distinct_requests :
  forall (ctx : Ctx) (id1 id2 : string) (s1 s2 : St),
    id1 <> "" -> id2 <> "" -> id1 <> id2 ->
    hd_error (callsMade (run c (Get ctx id1) s1))
    <> hd_error (callsMade (run c (Get ctx id2) s2)).
Proof.
  intros ctx id1 id2 s1 s2 H1 H2 Hneq Heq.
  destruct (callsMade_Get_head ctx id1 s1 H1) as (rest1 & Hhead1 & _).
  destruct (callsMade_Get_head ctx id2 s2 H2) as (rest2 & Hhead2 & _).
  rewrite Hhead1, Hhead2 in Heq. cbn in Heq.
  injection Heq as Heq.
  exact (Hneq Heq).
Qed.

(** X11: whatever the identifier, the first call of [Get] is never the
    call to [NewRequest] that [GetList] makes: the path [Get] passes to
    [NewRequest] always differs from the path of the list. *)
Theorem Get_never_requests_the_list :
  forall (ctx : Ctx) (statusCategoryID : string) (s1 s2 : St),
    hd_error (callsMade (run c (Get ctx statusCategoryID) s1))
    <> hd_error (callsMade (run c (GetList ctx) s2)).
Proof.
  intros ctx id s1 s2 Heq.
  destruct (callsMade_GetList_head ctx s2) as (rest2 & Hhead2).
  rewrite Hhead2 in Heq.
  destruct (String.eqb_spec id "") as [Hid | Hid].
  - subst id. cbn in Heq. discriminate.
  - destruct (callsMade_Get_head ctx id s1 Hid) as (rest1 & Hhead1 & _).
    rewrite Hhead1 in Heq. cbn in Heq. injection Heq as Heq.
    discriminate.
Qed.


End Outcomes.

(** ** The outcomes on the test double *)

(** A list whose body is [null]: a nil slice, the response and a nil error. *)
Lemma GetList_returns_what_Do_left_witness :
  doSucceeds Mock.Server Mock.client tt "/rest/api/3/statuscategory"
    SliceTarget None Mock.hollow None (Some 200%Z)
  /\ returned (run Mock.client (GetList tt) Mock.hollow) = (None, Some 200%Z, None).
Proof.
  assert (Hok : doSucceeds Mock.Server Mock.client tt "/rest/api/3/statuscategory"
            SliceTarget None Mock.hollow None (Some 200%Z)).
  { exists (Some ("GET", "/rest/api/3/statuscategory")), Mock.hollow,
      (Mock.serve "/rest/api/3/statuscategory" Mock.hollow).
    split; reflexivity. }
  split; [exact Hok |].
  exact (GetList_returns_what_Do_left Mock.Server Mock.client tt Mock.hollow
           None (Some 200%Z) Hok).
Defined.

(** The service is down: an error and a nil slice. *)
Lemma GetList_error_nil_slice_witness :
  errorOf (returned (run Mock.client (GetList tt) Mock.down)) <> None
  /\ valueOf (returned (run Mock.client (GetList tt) Mock.down)) = None.
Proof.
  assert (Herr : errorOf (returned (run Mock.client (GetList tt) Mock.down)) <> None)
    by discriminate.
  split; [exact Herr |].
  exact (GetList_error_nil_slice Mock.Server Mock.client tt Mock.down Herr).
Defined.

(** The category "gone" answers 500: the error has one of the three origins. *)
Lemma Get_error_origin_witness :
  errorOf (returned (run Mock.client (Get tt "gone") Mock.up))
    = Some (APIError (Some 500%Z) (externalError "request failed"))
  /\ (("gone" = ""
       /\ APIError (Some 500%Z) (externalError "request failed")
          = errors_New "jira: not status category set")
      \/ ("gone" <> ""
          /\ newRequestFails Mock.Server Mock.client tt
               ("/rest/api/3/statuscategory/" ++ "gone") Mock.up
               (APIError (Some 500%Z) (externalError "request failed")))
      \/ ("gone" <> ""
          /\ exists resp e0,
               doFails Mock.Server Mock.client tt
                 ("/rest/api/3/statuscategory/" ++ "gone")
                 StructTarget zeroStatusCategory Mock.up resp e0
               /\ APIError (Some 500%Z) (externalError "request failed")
                  = NewJiraError resp e0)).
Proof.
  assert (Herr : errorOf (returned (run Mock.client (Get tt "gone") Mock.up))
                 = Some (APIError (Some 500%Z) (externalError "request failed")))
    by reflexivity.
  split; [exact Herr |].
  exact (Get_error_origin Mock.Server Mock.client tt "gone" Mock.up _ Herr).
Defined.

(** A client that cannot build requests: the error is the one of
    [NewRequest] or comes from [Do]. *)
Lemma GetList_error_origin_witness :
  errorOf (returned (run Mock.client (GetList tt) Mock.broken))
    = Some (externalError "parse base url")
  /\ (newRequestFails Mock.Server Mock.client tt "/rest/api/3/statuscategory"
        Mock.broken (externalError "parse base url")
      \/ (exists resp e0,
            doFails Mock.Server Mock.client tt "/rest/api/3/statuscategory"
              SliceTarget None Mock.broken resp e0
            /\ externalError "parse base url" = NewJiraError resp e0)).
Proof.
  assert (Herr : errorOf (returned (run Mock.client (GetList tt) Mock.broken))
                 = Some (externalError "parse base url"))
    by reflexivity.
  split; [exact Herr |].
  exact (GetList_error_origin Mock.Server Mock.client tt Mock.broken _ Herr).
Defined.

(** The response 200 of the list and of the category 3 comes from [Do]. *)
Lemma response_comes_from_Do_witness :
  (responseOf (returned (run Mock.client (GetList tt) Mock.up)) = Some 200%Z
   /\ countDo (callsMade (run Mock.client (GetList tt) Mock.up)) = 1)
  /\ (responseOf (returned (run Mock.client (Get tt "3") Mock.up)) = Some 200%Z
      /\ "3" <> ""
      /\ countDo (callsMade (run Mock.client (Get tt "3") Mock.up)) = 1).
Proof.
  assert (Hlist : responseOf (returned (run Mock.client (GetList tt) Mock.up))
                  = Some 200%Z) by reflexivity.
  assert (Hget : responseOf (returned (run Mock.client (Get tt "3") Mock.up))
                 = Some 200%Z) by reflexivity.
  destruct (response_comes_from_Do Mock.Server Mock.client tt Mock.up 200%Z)
    as [Plist Pget].
  destruct (Plist Hlist) as (Hn1 & _).
  destruct (Pget "3" Hget) as (Hid & Hn2 & _).
  repeat split; assumption.
Defined.

(** The identifiers "3" and "done" give two different requests. *)
Lemma Get_distinct_ids_distinct_requests_witness :
  "3" <> "" /\ "done" <> "" /\ "3" <> "done"
  /\ hd_error (callsMade (run Mock.client (Get tt "3") Mock.up))
     <> hd_error (callsMade (run Mock.client (Get tt "done") Mock.up)).
Proof.
  assert (H1 : "3" <> "") by discriminate.
  assert (H2 : "done" <> "") by discriminate.
  assert (H3 : "3" <> "done") by discriminate.
  repeat split; try assumption.
  exact (Get_distinct_ids_distinct_requests Mock.Server Mock.client tt "3" "done"
           Mock.up Mock.up H1 H2 H3).
Defined.


(** The category "bare" is fetched: the error is nil, the request was built
    and [Do] succeeded, leaving the zero struct. *)
Lemma Get_nil_error_iff_witness :
  "bare" <> ""
  /\ doSucceeds Mock.Server Mock.client tt "/rest/api/3/statuscategory/bare"
       StructTarget zeroStatusCategory Mock.up zeroStatusCategory (Some 200%Z)
  /\ errorOf (returned (run Mock.client (Get tt "bare") Mock.up)) = None
  /\ returned (run Mock.client (Get tt "bare") Mock.up)
     = (Some zeroStatusCategory, Some 200%Z, None).
Proof.
  assert (Hid : "bare" <> "") by discriminate.
  assert (Hok : doSucceeds Mock.Server Mock.client tt
            "/rest/api/3/statuscategory/bare" StructTarget zeroStatusCategory
            Mock.up zeroStatusCategory (Some 200%Z)).
  { exists (Some ("GET", "/rest/api/3/statuscategory/bare")), Mock.up,
      (Mock.serve "/rest/api/3/statuscategory/bare" Mock.up).
    split; reflexivity. }
  destruct (Get_nil_error_iff Mock.Server Mock.client tt "bare" Mock.up)
    as [[_ Hnil] Hval].
  split; [exact Hid |]. split; [exact Hok |]. split.
  - apply Hnil. split; [exact Hid |].
    exists zeroStatusCategory, (Some 200%Z). exact Hok.
  - exact (Hval zeroStatusCategory (Some 200%Z) Hid Hok).
Defined.
